(** * Structural typing of the menu data model

    Shallow embedding of [frontend/src/types/menu.ts].  The source file holds
    interface declarations only, so the embedding has three layers:

    - [value]: the JavaScript values a payload is made of;
    - [ty] and [iface]: the TypeScript types the declarations use, with the
      type operators [Omit], [Partial] and interface extension as functions
      on property lists;
    - [has_type]: structural conformance of a value to a type, under
      [strictNullChecks] (the declarations write [string | null], so [null]
      is not a member of every type) and without
      [exactOptionalPropertyTypes] (an optional property also admits the
      value [undefined]); it includes the two checks that go beyond the
      declared properties, the excess property check on object literals
      and weak type detection.

    The interfaces themselves ([MenuItem], [Category], ...) are then written
    down as the source declares them, derived shapes included. *)

From Stdlib Require Import String List Bool QArith ZArith Permutation.
Import ListNotations.
Local Open Scope string_scope.
Local Open Scope list_scope.
#[local] Set Warnings "-register-all".

(** ** Runtime values *)

(** A [number] is a double in JavaScript; conformance to a type only looks
    at the kind of a value, never at the magnitude, and rationals are enough
    to write the literals that occur in payloads ([9.99]). *)
Inductive value : Type :=
| VUndefined
| VNull
| VBool (b : bool)
| VNum (q : Q)
| VStr (s : string)
| VArr (elems : list value)
| VObj (fields : list (string * value)).

(** Property read [o[k]]: the first binding of [k]; [None] when the key is
    absent (which JavaScript tells apart from a key bound to [undefined]
    with the [in] operator). *)
Definition field (k : string) (fs : list (string * value)) : option value :=
  option_map snd (find (fun kv => String.eqb k (fst kv)) fs).

(** [delete o[k]] for each [k] of [ks]. *)
Definition omit_fields (ks : list string) (fs : list (string * value))
  : list (string * value) :=
  filter (fun kv => negb (existsb (String.eqb (fst kv)) ks)) fs.

(** [{ ...o, k: x }]. *)
Definition set_field (k : string) (x : value) (fs : list (string * value))
  : list (string * value) :=
  (k, x) :: omit_fields [k] fs.

Definition is_undefined (v : value) : bool :=
  match v with VUndefined => true | _ => false end.

Definition is_integer (q : Q) : bool :=
  (Zpos (Qden (Qred q)) =? 1)%Z.

(** ** Types *)

Record prop (T : Type) : Type := mkProp
  { pname : string; poptional : bool; ptype : T }.
Arguments mkProp {T} pname poptional ptype.
Arguments pname {T} p.
Arguments poptional {T} p.
Arguments ptype {T} p.

Inductive ty : Type :=
| TNumber
| TString
| TBoolean
| TNull
| TNever
| TUnion (a b : ty)
| TArray (elem : ty)
| TIndexed (elem : ty)            (* { [key: string]: elem } *)
| TObject (props : list (prop ty)).

(** An interface body: its property declarations, in order. *)
Definition iface : Type := list (prop ty).

Declare Scope iface_scope.
Delimit Scope iface_scope with iface.
Notation "k ':::' t" := (mkProp k false t) (at level 60) : iface_scope.
Notation "k '?::' t" := (mkProp k true t) (at level 60) : iface_scope.

Definition names (i : iface) : list string := map pname i.

Definition lookup_prop (k : string) (i : iface) : option (prop ty) :=
  find (fun p => String.eqb k (pname p)) i.

(** *** Type operators *)

(** [Omit<I, K>]: the properties of [I] whose name is not in [K]. *)
Definition Omit (i : iface) (keys : list string) : iface :=
  filter (fun p => negb (existsb (String.eqb (pname p)) keys)) i.

(** [Partial<I>]: every property of [I], made optional. *)
Definition Partial (i : iface) : iface :=
  map (fun p => mkProp (pname p) true (ptype p)) i.

(** [interface X extends B { own }]: the members of [B] that [own] does not
    redeclare, followed by [own]. *)
Definition extends (base own : iface) : iface :=
  Omit base (names own) ++ own.

(** ** Conformance *)

(** A weak type: an object type with at least one property, all of them
    optional ([MenuItemUpdate], [Partial<MenuItemCreate>]). *)
Definition is_weak {T : Type} (ps : list (prop T)) : bool :=
  match ps with
  | [] => false
  | _ :: _ => forallb poptional ps
  end.

(** Weak type detection: an object with properties of its own is only
    assignable to a weak type if it has one of the declared properties. *)
Definition shares_key {T : Type} (ps : list (prop T))
  (fs : list (string * value)) : bool :=
  match fs with
  | [] => true
  | _ :: _ =>
      existsb (fun kv => existsb (String.eqb (fst kv)) (map pname ps)) fs
  end.

(** [has_type fresh t v]: the value [v] is assignable to [t].  With
    [fresh = true] object values are checked as TypeScript checks object
    literals, where a property the type does not declare is an error; with
    [fresh = false] additional properties are allowed, as for any other
    expression.  In both cases a weak type refuses an object that has
    properties but none of the declared ones. *)
Fixpoint has_type (fresh : bool) (t : ty) (v : value) {struct t} : bool :=
  match t, v with
  | TNumber, VNum _ => true
  | TString, VStr _ => true
  | TBoolean, VBool _ => true
  | TNull, VNull => true
  | TNever, _ => false
  | TUnion a b, _ => has_type fresh a v || has_type fresh b v
  | TArray e, VArr l => forallb (has_type fresh e) l
  | TIndexed e, VObj fs => forallb (fun kv => has_type fresh e (snd kv)) fs
  | TObject ps, VObj fs =>
      forallb
        (fun p =>
           match field (pname p) fs with
           | None => poptional p
           | Some x =>
               has_type fresh (ptype p) x || (poptional p && is_undefined x)
           end) ps
      && (negb fresh
          || forallb (fun kv => existsb (String.eqb (fst kv)) (map pname ps)) fs)
      && (negb (is_weak ps) || shares_key ps fs)
  | _, _ => false
  end.

(** What [has_type] asks of one declared property, as a proposition. *)
Definition prop_holds (fresh : bool) (fs : list (string * value))
  (p : prop ty) : Prop :=
  match field (pname p) fs with
  | None => poptional p = true
  | Some x =>
      has_type fresh (ptype p) x = true \/ (poptional p = true /\ x = VUndefined)
  end.

(** What weak type detection asks of an object, as a proposition. *)
Definition weak_holds (ps : list (prop ty)) (fs : list (string * value))
  : Prop :=
  is_weak ps = true ->
  fs = [] \/ exists kv, In kv fs /\ In (fst kv) (map pname ps).

(** ** The declarations of [menu.ts] *)

Local Open Scope iface_scope.

Definition Allergen : iface :=
  [ "id" ::: TNumber;
    "name" ::: TString;
    "description" ?:: TString ].

Definition MenuItem : iface :=
  [ "id" ::: TNumber;
    "name" ::: TString;
    "description" ::: TString;
    "price" ::: TNumber;
    "category_id" ::: TNumber;
    "category" ::: TString;
    "is_active" ::: TBoolean;
    "is_available" ::: TBoolean;
    "is_vegetarian" ::: TBoolean;
    "is_vegan" ::: TBoolean;
    "is_gluten_free" ::: TBoolean;
    "spice_level" ::: TNumber;
    "preparation_time" ::: TNumber;
    "average_rating" ::: TNumber;
    "rating_count" ::: TNumber;
    "allergens" ::: TArray (TObject Allergen);
    "customization_options" ::: TIndexed (TArray TString);
    "image_url" ?:: TString;
    "created_at" ::: TString;
    "updated_at" ::: TString ].

Definition Category : iface :=
  [ "id" ::: TNumber;
    "name" ::: TString;
    "description" ::: TUnion TString TNull;
    "is_active" ::: TBoolean;
    "created_at" ::: TString;
    "updated_at" ::: TString ].

Definition CategoryCreate : iface :=
  [ "name" ::: TString;
    "description" ::: TUnion TString TNull;
    "is_active" ::: TBoolean ].

Definition CategoryUpdate : iface :=
  extends CategoryCreate
    [ "id" ?:: TNever ].

Definition MenuItemCreate_omitted : list string :=
  [ "id"; "created_at"; "updated_at"; "category"; "average_rating";
    "rating_count" ].

Definition MenuItemCreate : iface :=
  extends (Omit MenuItem MenuItemCreate_omitted)
    [ "category_id" ::: TNumber;
      "allergen_ids" ::: TArray TNumber ].

Definition MenuItemUpdate : iface :=
  extends (Partial MenuItemCreate)
    [ "id" ?:: TNever ].

Local Close Scope iface_scope.

(** ** Sample payloads *)

Definition peanuts : value :=
  VObj [ ("id", VNum 1); ("name", VStr "Peanuts") ].

Definition gluten : value :=
  VObj [ ("id", VNum 2); ("name", VStr "Gluten");
         ("description", VStr "Wheat, barley, rye") ].

Definition pad_thai_fields : list (string * value) :=
  [ ("id", VNum 7);
    ("name", VStr "Pad Thai");
    ("description", VStr "Rice noodles with tamarind sauce");
    ("price", VNum (1250 # 100));
    ("category_id", VNum 3);
    ("category", VStr "Mains");
    ("is_active", VBool true);
    ("is_available", VBool true);
    ("is_vegetarian", VBool false);
    ("is_vegan", VBool false);
    ("is_gluten_free", VBool true);
    ("spice_level", VNum 2);
    ("preparation_time", VNum 15);
    ("average_rating", VNum (45 # 10));
    ("rating_count", VNum 12);
    ("allergens", VArr [ peanuts ]);
    ("customization_options",
       VObj [ ("protein", VArr [ VStr "tofu"; VStr "chicken" ]) ]);
    ("created_at", VStr "2024-01-01T00:00:00Z");
    ("updated_at", VStr "2024-01-02T00:00:00Z") ].

Definition pad_thai : value := VObj pad_thai_fields.

(** The create payload of test 1: the read value without the six
    server-side fields, with identifiers added. *)
Definition pad_thai_create_fields : list (string * value) :=
  set_field "allergen_ids" (VArr [ VNum 1 ])
    (omit_fields MenuItemCreate_omitted pad_thai_fields).

Definition desserts_fields : list (string * value) :=
  [ ("name", VStr "Desserts"); ("description", VNull);
    ("is_active", VBool true) ].

Definition desserts : value := VObj desserts_fields.

Definition price_only (q : Q) : value := VObj [ ("price", VNum q) ].

Definition mains_fields : list (string * value) :=
  [ ("id", VNum 3); ("name", VStr "Mains"); ("description", VNull);
    ("is_active", VBool true);
    ("created_at", VStr "2024-01-01T00:00:00Z");
    ("updated_at", VStr "2024-01-01T00:00:00Z") ].

(** A read value whose rating count is 5/2. *)
Definition half_count_fields : list (string * value) :=
  set_field "rating_count" (VNum (5 # 2)) pad_thai_fields.

(** ** The shapes as the specification words them *)

Definition is_number (v : value) : Prop := exists q, v = VNum q.
Definition is_string (v : value) : Prop := exists s, v = VStr s.
Definition is_boolean (v : value) : Prop := exists b, v = VBool b.
Definition is_integer_number (v : value) : Prop :=
  exists q, v = VNum q /\ is_integer q = true.
Definition is_string_or_null (v : value) : Prop := is_string v \/ v = VNull.

(** An ordered sequence whose elements satisfy [P]. *)
Definition is_seq_of (P : value -> Prop) (v : value) : Prop :=
  exists l, v = VArr l /\ Forall P l.

(** A mapping from string keys to values that satisfy [P]. *)
Definition is_map_of (P : value -> Prop) (v : value) : Prop :=
  exists fs, v = VObj fs /\ Forall (fun kv => P (snd kv)) fs.

(** A field that is present and satisfies [P]. *)
Definition required (P : value -> Prop) (o : option value) : Prop :=
  exists x, o = Some x /\ P x.

(** A field that may be absent (or hold [undefined]) and otherwise
    satisfies [P]. *)
Definition optional (P : value -> Prop) (o : option value) : Prop :=
  o = None \/ o = Some VUndefined \/ required P o.

(** The read shape of a menu item, field by field; [count] is what is asked
    of the rating count and [allergen] of each element of [allergens]. *)
Definition MenuItem_read_shape (count allergen : value -> Prop)
  (fs : list (string * value)) : Prop :=
  required is_number (field "id" fs) /\
  required is_string (field "name" fs) /\
  required is_string (field "description" fs) /\
  required is_number (field "price" fs) /\
  required is_number (field "category_id" fs) /\
  required is_string (field "category" fs) /\
  required is_boolean (field "is_active" fs) /\
  required is_boolean (field "is_available" fs) /\
  required is_boolean (field "is_vegetarian" fs) /\
  required is_boolean (field "is_vegan" fs) /\
  required is_boolean (field "is_gluten_free" fs) /\
  required is_number (field "spice_level" fs) /\
  required is_number (field "preparation_time" fs) /\
  required is_number (field "average_rating" fs) /\
  required count (field "rating_count" fs) /\
  required (is_seq_of allergen) (field "allergens" fs) /\
  required (is_map_of (is_seq_of is_string))
    (field "customization_options" fs) /\
  optional is_string (field "image_url" fs) /\
  required is_string (field "created_at" fs) /\
  required is_string (field "updated_at" fs).

Definition MenuItem_field_names : list string :=
  [ "id"; "name"; "description"; "price"; "category_id"; "category";
    "is_active"; "is_available"; "is_vegetarian"; "is_vegan";
    "is_gluten_free"; "spice_level"; "preparation_time"; "average_rating";
    "rating_count"; "allergens"; "customization_options"; "image_url";
    "created_at"; "updated_at" ].

(** The create shape as worded: identifiers in place of the objects. *)
Definition allergen_ids_replace_allergens (fs : list (string * value))
  : Prop :=
  required (is_seq_of is_number) (field "allergen_ids" fs) /\
  field "allergens" fs = None.

(** [MenuItemCreate] without the restatement of [category_id]. *)
Definition MenuItemCreate_inherited_category_id : iface :=
  extends (Omit MenuItem MenuItemCreate_omitted)
    [ mkProp "allergen_ids" false (TArray TNumber) ].

(** *** The remaining read shapes *)

(** The fields of a category that the server assigns. *)
Definition Category_server_fields : list string :=
  [ "id"; "created_at"; "updated_at" ].

Definition Category_field_names : list string :=
  [ "id"; "name"; "description"; "is_active"; "created_at"; "updated_at" ].

Definition Category_read_shape (fs : list (string * value)) : Prop :=
  required is_number (field "id" fs) /\
  required is_string (field "name" fs) /\
  required is_string_or_null (field "description" fs) /\
  required is_boolean (field "is_active" fs) /\
  required is_string (field "created_at" fs) /\
  required is_string (field "updated_at" fs).

Definition CategoryCreate_field_names : list string :=
  [ "name"; "description"; "is_active" ].

Definition CategoryCreate_shape (fs : list (string * value)) : Prop :=
  required is_string (field "name" fs) /\
  required is_string_or_null (field "description" fs) /\
  required is_boolean (field "is_active" fs).

Definition Allergen_field_names : list string :=
  [ "id"; "name"; "description" ].

Definition Allergen_shape (fs : list (string * value)) : Prop :=
  required is_number (field "id" fs) /\
  required is_string (field "name" fs) /\
  optional is_string (field "description" fs).

(** An absent key, or a key bound to [undefined]. *)
Definition absent_or_undefined (o : option value) : Prop :=
  o = None \/ o = Some VUndefined.

(** * Properties *)

(** ** Field access *)

Section Fields.

Implicit Types (k : string) (ks : list string) (fs : list (string * value)).

Lemma field_cons_eq k x fs : field k ((k, x) :: fs) = Some x.
Proof. unfold field; simpl. now rewrite String.eqb_refl. Qed.

Lemma field_cons_neq k k' x fs :
  k <> k' -> field k' ((k, x) :: fs) = field k' fs.
Proof.
  intros Hne. unfold field; simpl.
  destruct (String.eqb_spec k' k) as [E | _]; [congruence | reflexivity].
Qed.

Lemma field_In k x fs : field k fs = Some x -> In (k, x) fs.
Proof.
  unfold field. destruct (find _ fs) as [[k0 x0] |] eqn:Hf; [| discriminate].
  simpl; intros [= <-]. apply find_some in Hf as [Hin Hk]; simpl in Hk.
  apply String.eqb_eq in Hk. now subst k0.
Qed.

Lemma field_None_not_In k fs :
  field k fs = None -> forall x, ~ In (k, x) fs.
Proof.
  unfold field. destruct (find _ fs) eqn:Hf; [discriminate |].
  intros _ x Hin. apply (find_none _ _ Hf) in Hin; simpl in Hin.
  now rewrite String.eqb_refl in Hin.
Qed.

Lemma mem_In k ks : existsb (String.eqb k) ks = true <-> In k ks.
Proof.
  rewrite existsb_exists. split.
  - intros [k' [Hin Hk]]. apply String.eqb_eq in Hk. now subst.
  - intros Hin. exists k. split; [assumption | apply String.eqb_refl].
Qed.

Lemma mem_not_In k ks : existsb (String.eqb k) ks = false <-> ~ In k ks.
Proof.
  rewrite <- mem_In. destruct (existsb _ ks); split; congruence.
Qed.

(** Deleting other keys does not change what a key holds. *)
Lemma field_omit_out k ks fs :
  ~ In k ks -> field k (omit_fields ks fs) = field k fs.
Proof.
  intros Hout. unfold field, omit_fields. f_equal.
  induction fs as [| [k0 x0] fs IH]; simpl; [reflexivity |].
  destruct (existsb (String.eqb k0) ks) eqn:Hk0; simpl.
  - destruct (String.eqb_spec k k0) as [-> | _]; [| exact IH].
    apply mem_In in Hk0. contradiction.
  - now rewrite IH.
Qed.

(** A deleted key is absent. *)
Lemma field_omit_in k ks fs :
  In k ks -> field k (omit_fields ks fs) = None.
Proof.
  intros Hin. unfold field, omit_fields.
  induction fs as [| [k0 x0] fs IH]; simpl; [reflexivity |].
  destruct (existsb (String.eqb k0) ks) eqn:Hk0; simpl; [exact IH |].
  destruct (String.eqb_spec k k0) as [-> | _]; [| exact IH].
  apply mem_not_In in Hk0. contradiction.
Qed.

Lemma field_set_same k x fs : field k (set_field k x fs) = Some x.
Proof. apply field_cons_eq. Qed.

Lemma field_set_other k k' x fs :
  k <> k' -> field k' (set_field k x fs) = field k' fs.
Proof.
  intros Hne. unfold set_field. rewrite field_cons_neq by assumption.
  apply field_omit_out. simpl. intros [E | []]. congruence.
Qed.

Lemma keys_omit ks fs kv :
  In kv (omit_fields ks fs) <-> In kv fs /\ ~ In (fst kv) ks.
Proof.
  unfold omit_fields. rewrite filter_In, negb_true_iff, mem_not_In.
  reflexivity.
Qed.

End Fields.

(** ** Conformance, case by case *)

Section Conformance.

Variable fresh : bool.

Implicit Types (v x : value) (fs : list (string * value)) (p : prop ty)
  (ps : iface).

Lemma is_undefined_true x : is_undefined x = true <-> x = VUndefined.
Proof. destruct x; simpl; split; congruence. Qed.

Lemma has_type_number v :
  has_type fresh TNumber v = true <-> exists q, v = VNum q.
Proof.
  split.
  - destruct v; simpl; try discriminate. intros _. now exists q.
  - now intros [q ->].
Qed.

Lemma has_type_string v :
  has_type fresh TString v = true <-> exists s, v = VStr s.
Proof.
  split.
  - destruct v; simpl; try discriminate. intros _. now exists s.
  - now intros [s ->].
Qed.

Lemma has_type_boolean v :
  has_type fresh TBoolean v = true <-> exists b, v = VBool b.
Proof.
  split.
  - destruct v; simpl; try discriminate. intros _. now exists b.
  - now intros [b ->].
Qed.

Lemma has_type_null v : has_type fresh TNull v = true <-> v = VNull.
Proof. destruct v; simpl; split; congruence. Qed.

Lemma has_type_never v : has_type fresh TNever v = false.
Proof. reflexivity. Qed.

Lemma has_type_union a b v :
  has_type fresh (TUnion a b) v = true <->
  has_type fresh a v = true \/ has_type fresh b v = true.
Proof. simpl. apply orb_true_iff. Qed.

Lemma has_type_array e v :
  has_type fresh (TArray e) v = true <->
  exists l, v = VArr l /\ Forall (fun x => has_type fresh e x = true) l.
Proof.
  split.
  - destruct v; simpl; try discriminate.
    intros H. exists elems. split; [reflexivity |].
    now apply Forall_forall, forallb_forall.
  - intros [l [-> H]]. simpl. now apply forallb_forall, Forall_forall.
Qed.

Lemma has_type_indexed e v :
  has_type fresh (TIndexed e) v = true <->
  exists fs, v = VObj fs /\
             Forall (fun kv => has_type fresh e (snd kv) = true) fs.
Proof.
  split.
  - destruct v; simpl; try discriminate.
    intros H. exists fields. split; [reflexivity |].
    apply Forall_forall. intros kv Hkv.
    now apply (proj1 (forallb_forall _ _) H).
  - intros [l [-> H]]. simpl. apply forallb_forall.
    now apply Forall_forall.
Qed.

(** Only objects conform to an interface. *)
Lemma has_type_object_inv ps v :
  has_type fresh (TObject ps) v = true -> exists fs, v = VObj fs.
Proof. destruct v; simpl; try discriminate. intros _. now exists fields. Qed.

(** The declared properties and, for a literal, the keys. *)
Lemma props_and_keys ps fs :
  forallb
    (fun p =>
       match field (pname p) fs with
       | None => poptional p
       | Some x =>
           has_type fresh (ptype p) x || (poptional p && is_undefined x)
       end) ps
  && (negb fresh
      || forallb (fun kv => existsb (String.eqb (fst kv)) (map pname ps)) fs)
  = true <->
  Forall (prop_holds fresh fs) ps /\
  (fresh = true -> Forall (fun kv => In (fst kv) (names ps)) fs).
Proof.
  rewrite andb_true_iff, orb_true_iff, negb_true_iff.
  rewrite !forallb_forall, !Forall_forall. unfold prop_holds.
  split.
  - intros [Hps Hks]. split.
    + intros p Hp. specialize (Hps p Hp).
      destruct (field (pname p) fs) as [x |]; [| exact Hps].
      apply orb_true_iff in Hps as [H | H]; [now left | right].
      apply andb_true_iff in H as [Ho Hu].
      now apply is_undefined_true in Hu.
    + intros Hf kv Hkv. destruct Hks as [Hks | Hks]; [congruence |].
      apply mem_In. now apply Hks.
  - intros [Hps Hks]. split.
    + intros p Hp. specialize (Hps p Hp).
      destruct (field (pname p) fs) as [x |]; [| exact Hps].
      apply orb_true_iff. destruct Hps as [H | [Ho ->]]; [now left | right].
      now rewrite Ho.
    + destruct fresh; [right | now left].
      intros kv Hkv. apply mem_In. now apply Hks.
Qed.

(** Weak type detection, as a proposition. *)
Lemma weak_check ps fs :
  negb (is_weak ps) || shares_key ps fs = true <-> weak_holds ps fs.
Proof.
  unfold weak_holds. destruct (is_weak ps); simpl.
  - destruct fs as [| kv0 fs].
    + split; [intros _ _; now left | reflexivity].
    + unfold shares_key. rewrite existsb_exists. split.
      * intros [kv [Hin Hk]] _. right. exists kv. split; [exact Hin |].
        now apply mem_In.
      * intros H. destruct (H eq_refl) as [E | [kv [Hin Hk]]];
          [discriminate |].
        exists kv. split; [exact Hin | now apply mem_In].
  - split; [discriminate | reflexivity].
Qed.

(** Conformance to an interface: the declared properties, the keys of a
    literal, and weak type detection. *)
Lemma has_type_object_weak ps fs :
  has_type fresh (TObject ps) (VObj fs) = true <->
  (Forall (prop_holds fresh fs) ps /\
   (fresh = true -> Forall (fun kv => In (fst kv) (names ps)) fs)) /\
  weak_holds ps fs.
Proof.
  simpl. rewrite andb_true_iff, props_and_keys, weak_check. reflexivity.
Qed.

Lemma has_type_object_elim ps fs :
  has_type fresh (TObject ps) (VObj fs) = true ->
  Forall (prop_holds fresh fs) ps /\
  (fresh = true -> Forall (fun kv => In (fst kv) (names ps)) fs).
Proof. intros H. now apply has_type_object_weak in H as [H _]. Qed.

(** Conformance to an interface with a required property, property by
    property. *)
Lemma has_type_object ps fs :
  is_weak ps = false ->
  has_type fresh (TObject ps) (VObj fs) = true <->
  Forall (prop_holds fresh fs) ps /\
  (fresh = true -> Forall (fun kv => In (fst kv) (names ps)) fs).
Proof.
  intros Hw. rewrite has_type_object_weak. unfold weak_holds. rewrite Hw.
  split; [now intros [H _] | intros H; split; [exact H | discriminate]].
Qed.

Lemma has_type_object_intro ps fs :
  is_weak ps = false ->
  Forall (prop_holds fresh fs) ps /\
  (fresh = true -> Forall (fun kv => In (fst kv) (names ps)) fs) ->
  has_type fresh (TObject ps) (VObj fs) = true.
Proof. intros Hw H. now apply has_type_object. Qed.

(** An object that has one of the declared properties passes weak type
    detection, whatever the interface. *)
Lemma has_type_object_shared ps fs kv :
  In kv fs -> In (fst kv) (names ps) ->
  Forall (prop_holds fresh fs) ps /\
  (fresh = true -> Forall (fun kv => In (fst kv) (names ps)) fs) ->
  has_type fresh (TObject ps) (VObj fs) = true.
Proof.
  intros Hin Hk H. apply has_type_object_weak. split; [exact H |].
  intros _. right. now exists kv.
Qed.

(** A conforming object satisfies each declared property. *)
Lemma has_type_prop ps fs p :
  has_type fresh (TObject ps) (VObj fs) = true -> In p ps -> prop_holds fresh fs p.
Proof.
  intros H Hp. apply has_type_object_elim in H as [H _].
  rewrite Forall_forall in H. now apply H.
Qed.

(** A required property is present and holds a value of its type. *)
Lemma has_type_required ps fs k t :
  has_type fresh (TObject ps) (VObj fs) = true ->
  In (mkProp k false t) ps ->
  exists x, field k fs = Some x /\ has_type fresh t x = true.
Proof.
  intros H Hp. pose proof (has_type_prop _ _ _ H Hp) as Hh.
  unfold prop_holds in Hh; simpl in Hh.
  destruct (field k fs) as [x |]; [| discriminate].
  exists x. split; [reflexivity |].
  destruct Hh as [Hh | [Hh _]]; [assumption | discriminate].
Qed.

(** An optional property is absent, [undefined], or of its type. *)
Lemma has_type_optional ps fs k t x :
  has_type fresh (TObject ps) (VObj fs) = true ->
  In (mkProp k true t) ps ->
  field k fs = Some x ->
  x = VUndefined \/ has_type fresh t x = true.
Proof.
  intros H Hp Hx. pose proof (has_type_prop _ _ _ H Hp) as Hh.
  unfold prop_holds in Hh; simpl in Hh. rewrite Hx in Hh.
  destruct Hh as [Hh | [_ Hh]]; [now right | now left].
Qed.

(** A literal that conforms only has declared keys. *)
Lemma has_type_fresh_keys ps fs k x :
  fresh = true ->
  has_type fresh (TObject ps) (VObj fs) = true ->
  field k fs = Some x -> In k (names ps).
Proof.
  intros Hf H Hx. apply has_type_object_elim in H as [_ H].
  specialize (H Hf). rewrite Forall_forall in H.
  apply field_In in Hx. exact (H _ Hx).
Qed.

End Conformance.

(** ** The derived shapes, property by property *)

Local Open Scope iface_scope.

Lemma CategoryUpdate_props :
  CategoryUpdate =
  [ "name" ::: TString;
    "description" ::: TUnion TString TNull;
    "is_active" ::: TBoolean;
    "id" ?:: TNever ].
Proof. reflexivity. Qed.

Lemma MenuItemCreate_props :
  MenuItemCreate =
  [ "name" ::: TString;
    "description" ::: TString;
    "price" ::: TNumber;
    "is_active" ::: TBoolean;
    "is_available" ::: TBoolean;
    "is_vegetarian" ::: TBoolean;
    "is_vegan" ::: TBoolean;
    "is_gluten_free" ::: TBoolean;
    "spice_level" ::: TNumber;
    "preparation_time" ::: TNumber;
    "allergens" ::: TArray (TObject Allergen);
    "customization_options" ::: TIndexed (TArray TString);
    "image_url" ?:: TString;
    "category_id" ::: TNumber;
    "allergen_ids" ::: TArray TNumber ].
Proof. reflexivity. Qed.

Lemma MenuItemUpdate_props :
  MenuItemUpdate =
  [ "name" ?:: TString;
    "description" ?:: TString;
    "price" ?:: TNumber;
    "is_active" ?:: TBoolean;
    "is_available" ?:: TBoolean;
    "is_vegetarian" ?:: TBoolean;
    "is_vegan" ?:: TBoolean;
    "is_gluten_free" ?:: TBoolean;
    "spice_level" ?:: TNumber;
    "preparation_time" ?:: TNumber;
    "allergens" ?:: TArray (TObject Allergen);
    "customization_options" ?:: TIndexed (TArray TString);
    "image_url" ?:: TString;
    "category_id" ?:: TNumber;
    "allergen_ids" ?:: TArray TNumber;
    "id" ?:: TNever ].
Proof. reflexivity. Qed.

Local Close Scope iface_scope.

(** Membership of a written-out property in a written-out interface. *)
Ltac in_iface :=
  simpl; repeat (first [ left; reflexivity | right ]).

(** Both update shapes declare [id?: never]. *)
Lemma CategoryUpdate_id : In (mkProp "id" true TNever) CategoryUpdate.
Proof. rewrite CategoryUpdate_props. in_iface. Qed.

Lemma MenuItemUpdate_id : In (mkProp "id" true TNever) MenuItemUpdate.
Proof. rewrite MenuItemUpdate_props. in_iface. Qed.

(** An update body that conforms holds nothing but [undefined] under [id]. *)
Lemma update_id_undefined fresh (i : iface) fs x :
  In (mkProp "id" true TNever) i ->
  has_type fresh (TObject i) (VObj fs) = true ->
  field "id" fs = Some x -> x = VUndefined.
Proof.
  intros Hid Hty Hx.
  destruct (has_type_optional fresh i fs "id" TNever x Hty Hid Hx) as [H | H].
  - exact H.
  - rewrite has_type_never in H. discriminate.
Qed.

(** ** Update bodies and the identifier *)

(** C3: an update body for a menu item or a category that holds a defined
    value under [id] does not conform, while the category update
    [{ name: "Desserts", description: null, is_active: true }] does. *)
Theorem update_rejects_defined_id (fresh : bool) :
  (forall fs x,
      field "id" fs = Some x -> x <> VUndefined ->
      has_type fresh (TObject MenuItemUpdate) (VObj fs) = false /\
      has_type fresh (TObject CategoryUpdate) (VObj fs) = false) /\
  has_type fresh (TObject CategoryUpdate) desserts = true /\
  field "id" desserts_fields = None.
Proof.
  split; [| split; [destruct fresh |]; reflexivity].
  intros fs x Hx Hdef. split.
  - destruct (has_type fresh (TObject MenuItemUpdate) (VObj fs)) eqn:H;
      [| reflexivity].
    elim Hdef. exact (update_id_undefined _ _ _ _ MenuItemUpdate_id H Hx).
  - destruct (has_type fresh (TObject CategoryUpdate) (VObj fs)) eqn:H;
      [| reflexivity].
    elim Hdef. exact (update_id_undefined _ _ _ _ CategoryUpdate_id H Hx).
Qed.

Lemma update_rejects_defined_id_witness :
  field "id" (("id", VNum 4) :: desserts_fields) = Some (VNum 4) /\
  VNum 4 <> VUndefined /\
  has_type false (TObject MenuItemUpdate)
    (VObj (("id", VNum 4) :: desserts_fields)) = false /\
  has_type false (TObject CategoryUpdate)
    (VObj (("id", VNum 4) :: desserts_fields)) = false.
Proof.
  split; [reflexivity |]. split; [discriminate |].
  apply (proj1 (update_rejects_defined_id false)
           (("id", VNum 4) :: desserts_fields) (VNum 4));
    [reflexivity | discriminate].
Defined.

(** C9: the prohibition is on defined values only.  A body may carry the
    key [id] bound to [undefined] and still conform, and in every
    conforming body a present [id] holds [undefined]. *)
Theorem update_id_only_undefined (fresh : bool) :
  has_type fresh (TObject CategoryUpdate)
    (VObj (("id", VUndefined) :: desserts_fields)) = true /\
  has_type fresh (TObject MenuItemUpdate)
    (VObj [ ("id", VUndefined); ("price", VNum (999 # 100)) ]) = true /\
  (forall fs x,
      has_type fresh (TObject CategoryUpdate) (VObj fs) = true \/
      has_type fresh (TObject MenuItemUpdate) (VObj fs) = true ->
      field "id" fs = Some x -> x = VUndefined).
Proof.
  split; [destruct fresh; reflexivity |].
  split; [destruct fresh; reflexivity |].
  intros fs x [H | H] Hx.
  - exact (update_id_undefined _ _ _ _ CategoryUpdate_id H Hx).
  - exact (update_id_undefined _ _ _ _ MenuItemUpdate_id H Hx).
Qed.

Lemma update_id_only_undefined_witness :
  has_type true (TObject CategoryUpdate)
    (VObj (("id", VUndefined) :: desserts_fields)) = true /\
  field "id" (("id", VUndefined) :: desserts_fields) = Some VUndefined /\
  VUndefined = VUndefined.
Proof.
  split; [reflexivity |]. split; [reflexivity |].
  apply (proj2 (proj2 (update_id_only_undefined true))
           (("id", VUndefined) :: desserts_fields) VUndefined);
    [left; reflexivity | reflexivity].
Defined.

(** C4: a menu item update that only holds a numeric [price] conforms, and
    every property of [MenuItemUpdate] is optional. *)
Theorem MenuItemUpdate_price_only (fresh : bool) (q : Q) :
  has_type fresh (TObject MenuItemUpdate) (price_only q) = true /\
  has_type fresh (TObject MenuItemUpdate) (price_only (999 # 100)) = true /\
  Forall (fun p => poptional p = true) MenuItemUpdate.
Proof.
  split; [destruct fresh; reflexivity |].
  split; [destruct fresh; reflexivity |].
  rewrite MenuItemUpdate_props. repeat constructor.
Qed.

(** ** Allergens in create and update bodies *)

Lemma has_type_numbers fresh (ids : list Q) :
  has_type fresh (TArray TNumber) (VArr (map VNum ids)) = true.
Proof. simpl. induction ids as [| q ids IH]; simpl; [reflexivity | exact IH]. Qed.

Lemma required_number fresh o :
  required (fun x => has_type fresh TNumber x = true) o -> required is_number o.
Proof.
  intros [x [-> H]]. exists x. split; [reflexivity |].
  now apply has_type_number in H.
Qed.

Lemma required_numbers fresh o :
  required (fun x => has_type fresh (TArray TNumber) x = true) o ->
  required (is_seq_of is_number) o.
Proof.
  intros [x [-> H]]. exists x. split; [reflexivity |].
  apply has_type_array in H as [l [-> H]]. exists l. split; [reflexivity |].
  eapply Forall_impl; [| exact H]. intros a Ha.
  now apply has_type_number in Ha.
Qed.

Lemma required_allergens fresh o :
  required (fun x => has_type fresh (TArray (TObject Allergen)) x = true) o ->
  required (is_seq_of (fun a => has_type fresh (TObject Allergen) a = true)) o.
Proof.
  intros [x [-> H]]. exists x. split; [reflexivity |].
  apply has_type_array in H as [l [-> H]]. now exists l.
Qed.

(** The form of [has_type_required] used on written-out interfaces. *)
Lemma has_type_required' fresh ps fs k t :
  has_type fresh (TObject ps) (VObj fs) = true ->
  In (mkProp k false t) ps ->
  required (fun x => has_type fresh t x = true) (field k fs).
Proof. intros H Hp. exact (has_type_required fresh ps fs k t H Hp). Qed.

(** C1 (as the code has it): a conforming [MenuItemCreate] value holds a
    sequence of numbers under [allergen_ids] and, next to it, a sequence of
    [Allergen] objects under [allergens]; the objects are not replaced. *)
Theorem MenuItemCreate_allergen_ids_beside_allergens fresh fs :
  has_type fresh (TObject MenuItemCreate) (VObj fs) = true ->
  required (is_seq_of is_number) (field "allergen_ids" fs) /\
  required (is_seq_of (fun a => has_type fresh (TObject Allergen) a = true))
    (field "allergens" fs).
Proof.
  intros H. split.
  - apply (required_numbers fresh).
    apply (has_type_required' fresh MenuItemCreate); [exact H |].
    rewrite MenuItemCreate_props. in_iface.
  - apply required_allergens.
    apply (has_type_required' fresh MenuItemCreate); [exact H |].
    rewrite MenuItemCreate_props. in_iface.
Qed.

Lemma MenuItemCreate_allergen_ids_beside_allergens_witness :
  has_type true (TObject MenuItemCreate) (VObj pad_thai_create_fields) = true /\
  required (is_seq_of is_number) (field "allergen_ids" pad_thai_create_fields) /\
  required (is_seq_of (fun a => has_type true (TObject Allergen) a = true))
    (field "allergens" pad_thai_create_fields).
Proof.
  split; [reflexivity |].
  apply (MenuItemCreate_allergen_ids_beside_allergens true
           pad_thai_create_fields).
  reflexivity.
Defined.

(** C1 (as worded) fails: the create payload built from a read value
    conforms and still holds the [Allergen] objects, and leaving them out
    makes it non-conforming. *)
Lemma MenuItemCreate_allergens_not_replaced :
  has_type true (TObject MenuItemCreate) (VObj pad_thai_create_fields) = true /\
  field "allergens" pad_thai_create_fields = Some (VArr [ peanuts ]) /\
  ~ allergen_ids_replace_allergens pad_thai_create_fields /\
  has_type false (TObject MenuItemCreate)
    (VObj (omit_fields [ "allergens" ] pad_thai_create_fields)) = false.
Proof.
  split; [reflexivity |]. split; [reflexivity |]. split; [| reflexivity].
  intros [_ H]. discriminate H.
Qed.

(** C10: [MenuItemUpdate] declares an optional [allergens] property of
    [Allergen] objects next to the optional [allergen_ids]; an update body
    that embeds any sequence of conforming [Allergen] objects conforms,
    with or without identifiers beside them. *)
Theorem MenuItemUpdate_admits_allergen_objects fresh :
  lookup_prop "allergens" MenuItemUpdate
    = Some (mkProp "allergens" true (TArray (TObject Allergen))) /\
  lookup_prop "allergen_ids" MenuItemUpdate
    = Some (mkProp "allergen_ids" true (TArray TNumber)) /\
  has_type fresh (TObject MenuItemUpdate)
    (VObj [ ("allergens", VArr [ peanuts; gluten ]) ]) = true /\
  (forall als ids,
      Forall (fun a => has_type fresh (TObject Allergen) a = true) als ->
      has_type fresh (TObject MenuItemUpdate)
        (VObj [ ("allergens", VArr als) ]) = true /\
      has_type fresh (TObject MenuItemUpdate)
        (VObj [ ("allergens", VArr als);
                ("allergen_ids", VArr (map VNum ids)) ]) = true).
Proof.
  split; [reflexivity |]. split; [reflexivity |].
  split; [destruct fresh; reflexivity |].
  intros als ids Hals.
  assert (Ha : has_type fresh (TArray (TObject Allergen)) (VArr als) = true).
  { apply has_type_array. now exists als. }
  pose proof (has_type_numbers fresh ids) as Hi.
  rewrite MenuItemUpdate_props.
  split;
    (eapply has_type_object_shared;
     [ left; reflexivity | unfold names; in_iface | ]);
    split;
    try (intros _; repeat constructor; in_iface);
    repeat (apply Forall_cons; [unfold prop_holds; simpl;
                                first [reflexivity | left; assumption] |]);
    apply Forall_nil.
Qed.

Lemma MenuItemUpdate_admits_allergen_objects_witness :
  Forall (fun a => has_type true (TObject Allergen) a = true) [ gluten ] /\
  has_type true (TObject MenuItemUpdate)
    (VObj [ ("allergens", VArr [ gluten ]) ]) = true /\
  has_type true (TObject MenuItemUpdate)
    (VObj [ ("allergens", VArr [ gluten ]);
            ("allergen_ids", VArr (map VNum [ 2 ])) ]) = true.
Proof.
  assert (H : Forall (fun a => has_type true (TObject Allergen) a = true)
                [ gluten ]) by (repeat constructor).
  split; [exact H |].
  exact (proj2 (proj2 (proj2 (MenuItemUpdate_admits_allergen_objects true)))
           [ gluten ] [ 2 ] H).
Defined.

(** ** Nullable and optional fields *)

Lemma Category_description :
  In (mkProp "description" false (TUnion TString TNull)) Category.
Proof. unfold Category. in_iface. Qed.

Lemma MenuItem_image_url : In (mkProp "image_url" true TString) MenuItem.
Proof. unfold MenuItem. in_iface. Qed.

Lemma Allergen_description : In (mkProp "description" true TString) Allergen.
Proof. unfold Allergen. in_iface. Qed.

(** An optional string property never holds [null]. *)
Lemma optional_string_not_null fresh ps fs k :
  has_type fresh (TObject ps) (VObj fs) = true ->
  In (mkProp k true TString) ps ->
  field k fs <> Some VNull.
Proof.
  intros H Hp Hx.
  destruct (has_type_optional fresh ps fs k TString VNull H Hp Hx)
    as [E | E]; discriminate E.
Qed.

(** C6: nullable and optional are separate.  [Category.description] is
    required and may hold [null]; [MenuItem.image_url] and
    [Allergen.description] may be absent and never hold [null]. *)
Theorem nullable_and_optional_are_independent fresh :
  (forall fs,
      has_type fresh (TObject Category) (VObj fs) = true ->
      required is_string_or_null (field "description" fs)) /\
  (has_type fresh (TObject Category) (VObj mains_fields) = true /\
   field "description" mains_fields = Some VNull) /\
  (forall fs,
      has_type fresh (TObject MenuItem) (VObj fs) = true ->
      field "image_url" fs <> Some VNull) /\
  (has_type fresh (TObject MenuItem) pad_thai = true /\
   field "image_url" pad_thai_fields = None) /\
  (forall fs,
      has_type fresh (TObject Allergen) (VObj fs) = true ->
      field "description" fs <> Some VNull) /\
  (has_type fresh (TObject Allergen) peanuts = true /\
   has_type fresh (TObject Allergen) gluten = true).
Proof.
  repeat split; try (destruct fresh; reflexivity).
  - intros fs H.
    destruct (has_type_required fresh Category fs _ _ H Category_description)
      as [x [Hx Hty]].
    exists x. split; [exact Hx |].
    apply has_type_union in Hty as [Hty | Hty].
    + left. now apply has_type_string in Hty.
    + right. now apply has_type_null in Hty.
  - intros fs H.
    exact (optional_string_not_null fresh MenuItem fs _ H MenuItem_image_url).
  - intros fs H.
    exact (optional_string_not_null fresh Allergen fs _ H Allergen_description).
Qed.

Lemma nullable_and_optional_are_independent_witness :
  has_type true (TObject Category) (VObj mains_fields) = true /\
  required is_string_or_null (field "description" mains_fields).
Proof.
  split; [reflexivity |].
  apply (proj1 (nullable_and_optional_are_independent true) mains_fields).
  reflexivity.
Defined.

(** ** The restated [category_id] *)

Lemma is_weak_iff (ps : iface) :
  is_weak ps = true <-> ps <> [] /\ Forall (fun p => poptional p = true) ps.
Proof.
  destruct ps as [| p ps].
  - simpl. split; [discriminate | intros [H _]; now elim H].
  - unfold is_weak. rewrite forallb_forall, Forall_forall.
    split; [intros H; split; [discriminate | exact H] | now intros [_ H]].
Qed.

Lemma is_weak_Permutation (ps ps' : iface) :
  Permutation ps ps' -> is_weak ps = true -> is_weak ps' = true.
Proof.
  intros HP H. apply is_weak_iff in H as [Hne Hall]. apply is_weak_iff. split.
  - intros ->. apply Permutation_sym, Permutation_nil in HP. contradiction.
  - exact (Permutation_Forall HP Hall).
Qed.

(** Conformance does not depend on the order of the declarations. *)
Lemma has_type_Permutation fresh ps ps' v :
  Permutation ps ps' ->
  has_type fresh (TObject ps) v = has_type fresh (TObject ps') v.
Proof.
  intros HP. destruct v; try reflexivity.
  assert (Hone : forall qs qs', Permutation qs qs' ->
            has_type fresh (TObject qs) (VObj fields) = true ->
            has_type fresh (TObject qs') (VObj fields) = true).
  { intros qs qs' Hq H. apply has_type_object_weak in H as [[Hps Hks] Hw].
    apply has_type_object_weak. split; [split |].
    - exact (Permutation_Forall Hq Hps).
    - intros Hf. specialize (Hks Hf).
      eapply Forall_impl; [| exact Hks]. intros kv Hkv.
      unfold names in *.
      exact (Permutation_in _ (Permutation_map pname Hq) Hkv).
    - intros Hw'.
      destruct (Hw (is_weak_Permutation _ _ (Permutation_sym Hq) Hw'))
        as [E | [kv [Hin Hk]]]; [now left | right].
      exists kv. split; [exact Hin |].
      exact (Permutation_in _ (Permutation_map pname Hq) Hk). }
  destruct (has_type fresh (TObject ps) (VObj fields)) eqn:H1,
           (has_type fresh (TObject ps') (VObj fields)) eqn:H2;
    try reflexivity.
  - rewrite (Hone _ _ HP H1) in H2. discriminate.
  - rewrite (Hone _ _ (Permutation_sym HP) H2) in H1. discriminate.
Qed.

Lemma MenuItemCreate_restatement_Permutation :
  Permutation MenuItemCreate_inherited_category_id MenuItemCreate.
Proof.
  rewrite MenuItemCreate_props.
  unfold MenuItemCreate_inherited_category_id, MenuItem, extends, Omit; simpl.
  repeat apply perm_skip.
  repeat (eapply perm_trans; [apply perm_swap | apply perm_skip]).
  apply Permutation_refl.
Qed.

(** C8: [category_id] is a required number in [MenuItemCreate], declared
    exactly as in [MenuItem]; with or without the restatement the same
    values conform. *)
Theorem MenuItemCreate_category_id fresh :
  lookup_prop "category_id" MenuItemCreate
    = Some (mkProp "category_id" false TNumber) /\
  lookup_prop "category_id" MenuItemCreate
    = lookup_prop "category_id" MenuItem /\
  lookup_prop "category_id" MenuItemCreate_inherited_category_id
    = lookup_prop "category_id" MenuItemCreate /\
  (forall fs,
      has_type fresh (TObject MenuItemCreate) (VObj fs) = true ->
      required is_number (field "category_id" fs)) /\
  (forall v,
      has_type fresh (TObject MenuItemCreate) v
      = has_type fresh (TObject MenuItemCreate_inherited_category_id) v).
Proof.
  split; [reflexivity |]. split; [reflexivity |]. split; [reflexivity |].
  split.
  - intros fs H. apply (required_number fresh).
    apply (has_type_required' fresh MenuItemCreate); [exact H |].
    rewrite MenuItemCreate_props. in_iface.
  - intros v. symmetry. apply has_type_Permutation.
    exact MenuItemCreate_restatement_Permutation.
Qed.

Lemma MenuItemCreate_category_id_witness :
  has_type true (TObject MenuItemCreate) (VObj pad_thai_create_fields) = true /\
  required is_number (field "category_id" pad_thai_create_fields).
Proof.
  split; [reflexivity |].
  apply (proj1 (proj2 (proj2 (proj2 (MenuItemCreate_category_id true))))
           pad_thai_create_fields).
  reflexivity.
Defined.

(** ** From the read shape to the create shape *)

Lemma In_names_Omit (i : iface) ks k :
  In k (names (Omit i ks)) <-> In k (names i) /\ ~ In k ks.
Proof.
  unfold names, Omit. rewrite !in_map_iff. split.
  - intros [p [<- Hp]]. apply filter_In in Hp as [Hp Hk].
    apply negb_true_iff, mem_not_In in Hk. split; [now exists p | exact Hk].
  - intros [[p [<- Hp]] Hk]. exists p. split; [reflexivity |].
    apply filter_In. split; [exact Hp |].
    now apply negb_true_iff, mem_not_In.
Qed.

Lemma In_names_extends (base own : iface) k :
  In k (names (extends base own)) <-> In k (names base) \/ In k (names own).
Proof.
  unfold extends. unfold names at 1. rewrite map_app, in_app_iff.
  fold (names (Omit base (names own))). fold (names own).
  rewrite In_names_Omit. split.
  - intros [[H _] | H]; [now left | now right].
  - intros [H | H]; [| now right].
    destruct (in_dec string_dec k (names own)) as [Hin | Hout];
      [now right | now left].
Qed.

(** A property that [MenuItemCreate] takes over from [MenuItem] still holds
    after the server-side fields are dropped and the identifiers added. *)
Lemma prop_holds_kept fresh fs x (p : prop ty) :
  has_type fresh (TObject MenuItem) (VObj fs) = true ->
  In p MenuItem ->
  ~ In (pname p) MenuItemCreate_omitted ->
  pname p <> "allergen_ids" ->
  prop_holds fresh
    (set_field "allergen_ids" x (omit_fields MenuItemCreate_omitted fs)) p.
Proof.
  intros H Hp Hkept Hne. unfold prop_holds.
  rewrite field_set_other by congruence.
  rewrite field_omit_out by assumption.
  exact (has_type_prop fresh MenuItem fs p H Hp).
Qed.

(** C5: dropping [id], [created_at], [updated_at], [category],
    [average_rating] and [rating_count] from a conforming [MenuItem] value
    and adding a non-empty sequence of numbers as [allergen_ids] gives a
    conforming [MenuItemCreate] value. *)
Theorem MenuItemCreate_from_MenuItem fresh fs (ids : list Q) :
  has_type fresh (TObject MenuItem) (VObj fs) = true ->
  ids <> [] ->
  has_type fresh (TObject MenuItemCreate)
    (VObj (set_field "allergen_ids" (VArr (map VNum ids))
             (omit_fields
                [ "id"; "created_at"; "updated_at"; "category";
                  "average_rating"; "rating_count" ] fs))) = true.
Proof.
  intros H _.
  change [ "id"; "created_at"; "updated_at"; "category"; "average_rating";
           "rating_count" ] with MenuItemCreate_omitted.
  apply has_type_object_intro; [reflexivity |]. split.
  - rewrite MenuItemCreate_props.
    repeat (apply Forall_cons;
            [ apply prop_holds_kept;
              [ exact H
              | unfold MenuItem; in_iface
              | simpl; intuition discriminate
              | discriminate ]
            | ]).
    apply Forall_cons; [| apply Forall_nil].
    unfold prop_holds. simpl pname. rewrite field_set_same.
    left. apply has_type_numbers.
  - intros Hf. apply Forall_forall. intros kv [<- | Hkv].
    + rewrite MenuItemCreate_props. in_iface.
    + apply keys_omit in Hkv as [Hkv _].
      apply keys_omit in Hkv as [Hkv Hkept].
      apply has_type_object_elim in H as [_ Hks]. specialize (Hks Hf).
      rewrite Forall_forall in Hks. specialize (Hks kv Hkv).
      unfold MenuItemCreate. apply In_names_extends. left.
      apply In_names_Omit. split; assumption.
Qed.

Lemma MenuItemCreate_from_MenuItem_witness :
  has_type true (TObject MenuItem) pad_thai = true /\
  [ 1; 2 ] <> @nil Q /\
  has_type true (TObject MenuItemCreate)
    (VObj (set_field "allergen_ids" (VArr (map VNum [ 1; 2 ]))
             (omit_fields
                [ "id"; "created_at"; "updated_at"; "category";
                  "average_rating"; "rating_count" ] pad_thai_fields)))
  = true.
Proof.
  split; [reflexivity |]. split; [discriminate |].
  apply (MenuItemCreate_from_MenuItem true pad_thai_fields [ 1; 2 ]);
    [reflexivity | discriminate].
Defined.

(** ** The update shapes *)

Lemma MenuItemUpdate_is_partial_create :
  MenuItemUpdate = Partial MenuItemCreate ++ [ mkProp "id" true TNever ].
Proof. reflexivity. Qed.

Lemma CategoryUpdate_is_create :
  CategoryUpdate = CategoryCreate ++ [ mkProp "id" true TNever ].
Proof. reflexivity. Qed.





(** Declaring [id?: never] keeps every value that has no [id]. *)
Lemma has_type_forbid_id fresh (i : iface) fs :
  is_weak (i ++ [ mkProp "id" true TNever ]) = false ->
  has_type fresh (TObject i) (VObj fs) = true ->
  field "id" fs = None ->
  has_type fresh (TObject (i ++ [ mkProp "id" true TNever ])) (VObj fs) = true.
Proof.
  intros Hw H Hid. apply has_type_object_elim in H as [Hps Hks].
  apply has_type_object_intro; [exact Hw |]. split.
  - apply Forall_app. split; [exact Hps |].
    apply Forall_cons; [| apply Forall_nil].
    unfold prop_holds; simpl. now rewrite Hid.
  - intros Hf. specialize (Hks Hf).
    eapply Forall_impl; [| exact Hks]. intros kv Hkv.
    unfold names. rewrite map_app. apply in_or_app. now left.
Qed.




(** ** The read shape of a menu item *)

Lemma required_iff (P Q : value -> Prop) o :
  (forall x, P x <-> Q x) -> required P o <-> required Q o.
Proof.
  intros HPQ. unfold required.
  split; intros [x [Hx H]]; exists x; (split; [exact Hx | now apply HPQ]).
Qed.

Lemma optional_iff (P Q : value -> Prop) o :
  (forall x, P x <-> Q x) -> optional P o <-> optional Q o.
Proof.
  intros HPQ. unfold optional. rewrite (required_iff P Q o HPQ). reflexivity.
Qed.

Lemma prop_holds_required_iff fresh fs k t :
  prop_holds fresh fs (mkProp k false t) <->
  required (fun x => has_type fresh t x = true) (field k fs).
Proof.
  unfold prop_holds, required; simpl.
  destruct (field k fs) as [x |]; split.
  - intros [H | [H _]]; [| discriminate]. now exists x.
  - intros [y [[= <-] H]]. now left.
  - discriminate.
  - intros [y [[=] _]].
Qed.

Lemma prop_holds_optional_iff fresh fs k t :
  prop_holds fresh fs (mkProp k true t) <->
  optional (fun x => has_type fresh t x = true) (field k fs).
Proof.
  unfold prop_holds, optional, required; simpl.
  destruct (field k fs) as [x |]; split.
  - intros [H | [_ ->]]; [| now right; left].
    right; right. now exists x.
  - intros [[=] | [[= ->] | [y [[= <-] H]]]]; [right | left]; auto.
  - now left.
  - reflexivity.
Qed.

Lemma has_type_strings fresh v :
  has_type fresh (TArray TString) v = true <-> is_seq_of is_string v.
Proof.
  rewrite has_type_array. unfold is_seq_of.
  split; intros [l [-> H]]; exists l; (split; [reflexivity |]);
    (eapply Forall_impl; [| exact H]); intros a; apply has_type_string.
Qed.

Lemma has_type_customization_options fresh v :
  has_type fresh (TIndexed (TArray TString)) v = true <->
  is_map_of (is_seq_of is_string) v.
Proof.
  rewrite has_type_indexed. unfold is_map_of.
  split; intros [l [-> H]]; exists l; (split; [reflexivity |]);
    (eapply Forall_impl; [| exact H]); intros a; apply has_type_strings.
Qed.

Lemma and_iff2 (A B C D : Prop) :
  (A <-> B) -> (C <-> D) -> (A /\ C) <-> (B /\ D).
Proof. tauto. Qed.

Lemma Forall_one {A} (P : A -> Prop) (a : A) (Q : Prop) :
  (P a <-> Q) -> Forall P [ a ] <-> Q.
Proof.
  intros H. rewrite <- H. split.
  - apply Forall_inv.
  - intros Ha. now constructor.
Qed.

(** What a type asks of a value, in the words of the shapes. *)
Ltac bridge_ty :=
  first [ apply has_type_number | apply has_type_string
        | apply has_type_boolean | apply has_type_array
        | apply has_type_customization_options ].

Ltac bridge_prop :=
  first [ etransitivity;
          [ apply prop_holds_required_iff
          | apply required_iff; intros ?; bridge_ty ]
        | etransitivity;
          [ apply prop_holds_optional_iff
          | apply optional_iff; intros ?; bridge_ty ] ].

(** C7 (as the code has it): a value conforms to [MenuItem] exactly when it
    has the twenty fields of the read shape, the rating count being a
    number like the average rating; a literal may hold no other key. *)
Theorem MenuItem_shape fresh fs :
  names MenuItem = MenuItem_field_names /\
  (has_type fresh (TObject MenuItem) (VObj fs) = true <->
   MenuItem_read_shape is_number
     (fun a => has_type fresh (TObject Allergen) a = true) fs /\
   (fresh = true -> Forall (fun kv => In (fst kv) MenuItem_field_names) fs)).
Proof.
  split; [reflexivity |].
  etransitivity; [exact (has_type_object fresh MenuItem fs eq_refl) |].
  change (names MenuItem) with MenuItem_field_names.
  apply and_iff2; [| reflexivity].
  unfold MenuItem, MenuItem_read_shape.
  do 19 (etransitivity; [apply Forall_cons_iff |];
         apply and_iff2; [bridge_prop |]).
  apply Forall_one. bridge_prop.
Qed.

Lemma MenuItem_shape_witness :
  MenuItem_read_shape is_number
    (fun a => has_type false (TObject Allergen) a = true) pad_thai_fields.
Proof.
  apply (proj1 (proj2 (MenuItem_shape false pad_thai_fields))).
  reflexivity.
Defined.

(** C7 (as worded) fails on the rating count: a read value whose
    [rating_count] is 5/2 conforms to [MenuItem], and does not have the
    shape with an integer count. *)
Lemma MenuItem_rating_count_not_integer :
  has_type true (TObject MenuItem) (VObj half_count_fields) = true /\
  field "rating_count" half_count_fields = Some (VNum (5 # 2)) /\
  is_integer (5 # 2) = false /\
  ~ MenuItem_read_shape is_integer_number
      (fun a => has_type true (TObject Allergen) a = true) half_count_fields.
Proof.
  split; [reflexivity |]. split; [reflexivity |]. split; [reflexivity |].
  intros H. unfold MenuItem_read_shape in H.
  do 14 apply proj2 in H. apply proj1 in H.
  destruct H as [x [[= <-] [q [[= <-] Hq]]]]. discriminate Hq.
Qed.

(** * Further properties of the declarations *)

(** ** Moving properties across field updates *)

Lemma prop_holds_set_same fresh fs k x (p : prop ty) :
  pname p = k -> has_type fresh (ptype p) x = true ->
  prop_holds fresh (set_field k x fs) p.
Proof.
  intros <- Hx. unfold prop_holds. rewrite field_set_same. now left.
Qed.

Lemma prop_holds_set_other fresh fs k x (p : prop ty) :
  pname p <> k -> prop_holds fresh fs p ->
  prop_holds fresh (set_field k x fs) p.
Proof.
  intros Hne H. unfold prop_holds.
  rewrite field_set_other by congruence. exact H.
Qed.

Lemma prop_holds_omit_out fresh fs ks (p : prop ty) :
  ~ In (pname p) ks -> prop_holds fresh fs p ->
  prop_holds fresh (omit_fields ks fs) p.
Proof.
  intros Hout H. unfold prop_holds.
  rewrite field_omit_out by assumption. exact H.
Qed.

Lemma keys_set k x fs kv :
  In kv (set_field k x fs) -> kv = (k, x) \/ (In kv fs /\ fst kv <> k).
Proof.
  intros [<- | H]; [now left | right].
  apply keys_omit in H as [H Hk]. split; [exact H |].
  intros E. apply Hk. simpl. now left.
Qed.

(** [Omit] on an interface goes with deleting the same keys of a value. *)
Lemma has_type_Omit fresh (i : iface) ks fs :
  is_weak (Omit i ks) = false ->
  has_type fresh (TObject i) (VObj fs) = true ->
  has_type fresh (TObject (Omit i ks)) (VObj (omit_fields ks fs)) = true.
Proof.
  intros Hw H. apply has_type_object_elim in H as [Hps Hks].
  apply has_type_object_intro; [exact Hw |]. split.
  - rewrite Forall_forall in *. intros p Hp.
    apply filter_In in Hp as [Hp Hk].
    apply negb_true_iff, mem_not_In in Hk.
    apply prop_holds_omit_out; [exact Hk | now apply Hps].
  - intros Hf. specialize (Hks Hf). rewrite Forall_forall in *.
    intros kv Hkv. apply keys_omit in Hkv as [Hkv Hout].
    apply In_names_Omit. split; [now apply Hks | exact Hout].
Qed.

(** Where additional properties are allowed, a value of an interface is a
    value of every interface with a required property that declares some
    of the same properties. *)
Lemma has_type_incl (i i' : iface) fs :
  is_weak i' = false ->
  incl i' i ->
  has_type false (TObject i) (VObj fs) = true ->
  has_type false (TObject i') (VObj fs) = true.
Proof.
  intros Hw Hincl H. apply has_type_object_elim in H as [Hps _].
  apply has_type_object_intro; [exact Hw |]. split; [| discriminate].
  rewrite Forall_forall in *. intros p Hp. apply Hps, Hincl, Hp.
Qed.

(** What [id?: never] asks of an object. *)
Lemma prop_holds_id_iff fresh fs :
  prop_holds fresh fs (mkProp "id" true TNever) <->
  absent_or_undefined (field "id" fs).
Proof.
  unfold prop_holds, absent_or_undefined; simpl.
  destruct (field "id" fs) as [x |]; split.
  - intros [H | [_ ->]]; [discriminate | now right].
  - intros [[=] | [= ->]]. now right.
  - now left.
  - reflexivity.
Qed.

(** What [Partial<i>] asks of an object, property by property. *)
Lemma prop_holds_Partial_iff fresh (i : iface) fs :
  Forall (prop_holds fresh fs) (Partial i) <->
  forall p x, In p i -> field (pname p) fs = Some x ->
              x = VUndefined \/ has_type fresh (ptype p) x = true.
Proof.
  unfold Partial. rewrite Forall_map, Forall_forall.
  unfold prop_holds; simpl. split.
  - intros H p x Hp Hx. specialize (H p Hp). rewrite Hx in H.
    destruct H as [H | [_ H]]; [now right | now left].
  - intros H p Hp. destruct (field (pname p) fs) as [x |] eqn:Hx;
      [| reflexivity].
    destruct (H p x Hp Hx) as [-> | Hty]; [now right | now left].
Qed.

Lemma In_field k x fs : In (k, x) fs -> exists y, field k fs = Some y.
Proof.
  intros Hin. destruct (field k fs) as [y |] eqn:Hf; [now exists y |].
  elim (field_None_not_In k fs Hf x Hin).
Qed.

(** [id?: never] added to an interface with a required property, where
    additional properties are allowed: the same values, less those with a
    defined [id]. *)
Lemma has_type_forbid_id_iff (i : iface) fs :
  is_weak i = false ->
  is_weak (i ++ [ mkProp "id" true TNever ]) = false ->
  has_type false (TObject (i ++ [ mkProp "id" true TNever ])) (VObj fs) = true
  <->
  has_type false (TObject i) (VObj fs) = true /\
  absent_or_undefined (field "id" fs).
Proof.
  intros Hw Hw'.
  rewrite (has_type_object false _ fs Hw), (has_type_object false _ fs Hw').
  rewrite Forall_app. split.
  - intros [[Hps Hid] _]. split; [split; [exact Hps | discriminate] |].
    apply Forall_inv in Hid. now apply prop_holds_id_iff in Hid.
  - intros [[Hps _] Hid]. split; [split; [exact Hps |] | discriminate].
    apply Forall_cons; [| apply Forall_nil]. now apply prop_holds_id_iff.
Qed.

Lemma has_type_string_or_null fresh v :
  has_type fresh (TUnion TString TNull) v = true <-> is_string_or_null v.
Proof.
  rewrite has_type_union, has_type_string, has_type_null. reflexivity.
Qed.

Ltac bridge_prop' :=
  first [ bridge_prop
        | etransitivity;
          [ apply prop_holds_required_iff
          | apply required_iff; intros ?; apply has_type_string_or_null ] ].

(** ** Categories and allergens as read *)

(** X1: a value conforms to [Category] exactly when it has the six fields
    of the declaration, with [description] a string or [null]; a literal may
    hold no other key. *)
Theorem Category_shape fresh fs :
  has_type fresh (TObject Category) (VObj fs) = true <->
  Category_read_shape fs /\
  (fresh = true -> Forall (fun kv => In (fst kv) Category_field_names) fs).
Proof.
  etransitivity; [exact (has_type_object fresh Category fs eq_refl) |].
  change (names Category) with Category_field_names.
  apply and_iff2; [| reflexivity].
  unfold Category, Category_read_shape.
  do 5 (etransitivity; [apply Forall_cons_iff |];
        apply and_iff2; [bridge_prop' |]).
  apply Forall_one. bridge_prop'.
Qed.

Lemma Category_shape_witness : Category_read_shape mains_fields.
Proof.
  apply (proj1 (Category_shape true mains_fields)). reflexivity.
Defined.

Lemma Allergen_object_iff fresh fs :
  has_type fresh (TObject Allergen) (VObj fs) = true <->
  Allergen_shape fs /\
  (fresh = true -> Forall (fun kv => In (fst kv) Allergen_field_names) fs).
Proof.
  etransitivity; [exact (has_type_object fresh Allergen fs eq_refl) |].
  change (names Allergen) with Allergen_field_names.
  apply and_iff2; [| reflexivity].
  unfold Allergen, Allergen_shape.
  do 2 (etransitivity; [apply Forall_cons_iff |];
        apply and_iff2; [bridge_prop |]).
  apply Forall_one. bridge_prop.
Qed.

(** X2: a value conforms to [Allergen] exactly when it is an object with a
    numeric [id], a string [name] and, if present and not [undefined], a
    string [description]; a literal may hold no other key. *)
Theorem Allergen_conformance fresh v :
  has_type fresh (TObject Allergen) v = true <->
  exists fs,
    v = VObj fs /\ Allergen_shape fs /\
    (fresh = true -> Forall (fun kv => In (fst kv) Allergen_field_names) fs).
Proof.
  split.
  - intros H. destruct (has_type_object_inv fresh _ _ H) as [fs ->].
    exists fs. split; [reflexivity |]. now apply Allergen_object_iff.
  - intros [fs [-> H]]. now apply Allergen_object_iff.
Qed.

Lemma Allergen_conformance_witness :
  exists fs,
    gluten = VObj fs /\ Allergen_shape fs /\
    (true = true -> Forall (fun kv => In (fst kv) Allergen_field_names) fs).
Proof.
  apply (proj1 (Allergen_conformance true gluten)). reflexivity.
Defined.

(** X6: every element of the [allergens] of a conforming [MenuItem] is an
    object with a numeric [id] and a string [name], whose [description] is
    never [null]. *)
Theorem MenuItem_allergen_elements fresh fs :
  has_type fresh (TObject MenuItem) (VObj fs) = true ->
  exists als,
    field "allergens" fs = Some (VArr als) /\
    Forall (fun a => exists afs,
                a = VObj afs /\ Allergen_shape afs /\
                field "description" afs <> Some VNull) als.
Proof.
  intros H.
  assert (Hp : In (mkProp "allergens" false (TArray (TObject Allergen)))
                 MenuItem) by (unfold MenuItem; in_iface).
  destruct (has_type_required fresh _ _ _ _ H Hp) as [x [Hx Hty]].
  apply has_type_array in Hty as [als [-> Hals]].
  exists als. split; [exact Hx |].
  eapply Forall_impl; [| exact Hals]. intros a Ha.
  destruct (has_type_object_inv fresh _ _ Ha) as [afs ->].
  exists afs. split; [reflexivity |]. split.
  - now apply (Allergen_object_iff fresh afs).
  - exact (optional_string_not_null fresh Allergen afs _ Ha
             Allergen_description).
Qed.

Lemma MenuItem_allergen_elements_witness :
  exists als,
    field "allergens" pad_thai_fields = Some (VArr als) /\
    Forall (fun a => exists afs,
                a = VObj afs /\ Allergen_shape afs /\
                field "description" afs <> Some VNull) als.
Proof.
  apply (MenuItem_allergen_elements true pad_thai_fields). reflexivity.
Defined.

(** X7: in a conforming [MenuItem], [customization_options] is an object,
    and whatever it holds under a key is a sequence of strings. *)
Theorem MenuItem_customization_lookup fresh fs :
  has_type fresh (TObject MenuItem) (VObj fs) = true ->
  exists opts,
    field "customization_options" fs = Some (VObj opts) /\
    forall k v, field k opts = Some v -> is_seq_of is_string v.
Proof.
  intros H.
  assert (Hp : In (mkProp "customization_options" false
                     (TIndexed (TArray TString))) MenuItem)
    by (unfold MenuItem; in_iface).
  destruct (has_type_required fresh _ _ _ _ H Hp) as [x [Hx Hty]].
  apply has_type_indexed in Hty as [opts [-> Hopts]].
  exists opts. split; [exact Hx |].
  intros k v Hv. apply field_In in Hv.
  rewrite Forall_forall in Hopts. specialize (Hopts _ Hv); simpl in Hopts.
  now apply (has_type_strings fresh).
Qed.

Lemma MenuItem_customization_lookup_witness :
  exists opts,
    field "customization_options" pad_thai_fields = Some (VObj opts) /\
    forall k v, field k opts = Some v -> is_seq_of is_string v.
Proof.
  apply (MenuItem_customization_lookup false pad_thai_fields). reflexivity.
Defined.

(** ** Read values and request bodies *)

Lemma CategoryCreate_is_Omit :
  CategoryCreate = Omit Category Category_server_fields.
Proof. reflexivity. Qed.

Lemma MenuItem_id : In (mkProp "id" false TNumber) MenuItem.
Proof. unfold MenuItem. in_iface. Qed.

Lemma Category_id : In (mkProp "id" false TNumber) Category.
Proof. unfold Category. in_iface. Qed.

(** A value with a numeric [id] is no update body. *)
Lemma numeric_id_not_update fresh (i u : iface) fs :
  In (mkProp "id" false TNumber) i ->
  In (mkProp "id" true TNever) u ->
  has_type fresh (TObject i) (VObj fs) = true ->
  has_type fresh (TObject u) (VObj fs) = false.
Proof.
  intros Hi Hu H.
  destruct (has_type_required fresh _ _ _ _ H Hi) as [x [Hx Hty]].
  apply has_type_number in Hty as [q ->].
  destruct (has_type fresh (TObject u) (VObj fs)) eqn:E; [| reflexivity].
  discriminate (update_id_undefined fresh u fs _ Hu E Hx).
Qed.

(** X3: the hand-written [CategoryCreate] is [Category] without [id],
    [created_at] and [updated_at], property for property: a value conforms
    to it exactly when it has the three remaining fields as [Category]
    types them (a literal holding no other key), and deleting the three
    keys from a conforming [Category] gives a value that conforms to
    [CategoryCreate] and to [CategoryUpdate]. *)
Theorem CategoryCreate_from_Category fresh fs :
  CategoryCreate = Omit Category [ "id"; "created_at"; "updated_at" ] /\
  (has_type fresh (TObject CategoryCreate) (VObj fs) = true <->
   CategoryCreate_shape fs /\
   (fresh = true ->
    Forall (fun kv => In (fst kv) CategoryCreate_field_names) fs)) /\
  (has_type fresh (TObject Category) (VObj fs) = true ->
   has_type fresh (TObject CategoryCreate)
     (VObj (omit_fields [ "id"; "created_at"; "updated_at" ] fs)) = true /\
   has_type fresh (TObject CategoryUpdate)
     (VObj (omit_fields [ "id"; "created_at"; "updated_at" ] fs)) = true).
Proof.
  split; [reflexivity |]. split.
  - etransitivity; [exact (has_type_object fresh CategoryCreate fs eq_refl) |].
    change (names CategoryCreate) with CategoryCreate_field_names.
    apply and_iff2; [| reflexivity].
    unfold CategoryCreate, CategoryCreate_shape.
    do 2 (etransitivity; [apply Forall_cons_iff |];
          apply and_iff2; [bridge_prop' |]).
    apply Forall_one. bridge_prop'.
  - intros H.
    change [ "id"; "created_at"; "updated_at" ] with Category_server_fields.
    assert (Hc : has_type fresh (TObject CategoryCreate)
                   (VObj (omit_fields Category_server_fields fs)) = true).
    { rewrite CategoryCreate_is_Omit. now apply has_type_Omit. }
    split; [exact Hc |].
    rewrite CategoryUpdate_is_create.
    apply has_type_forbid_id; [reflexivity | exact Hc |].
    apply field_omit_in. simpl. now left.
Qed.

Lemma CategoryCreate_from_Category_witness :
  has_type true (TObject Category) (VObj mains_fields) = true /\
  has_type true (TObject CategoryCreate)
    (VObj (omit_fields [ "id"; "created_at"; "updated_at" ] mains_fields))
  = true /\
  has_type true (TObject CategoryUpdate)
    (VObj (omit_fields [ "id"; "created_at"; "updated_at" ] mains_fields))
  = true.
Proof.
  split; [reflexivity |].
  apply (proj2 (proj2 (CategoryCreate_from_Category true mains_fields))).
  reflexivity.
Defined.

(** X4: a value as read is never an update body: a conforming [MenuItem]
    does not conform to [MenuItemUpdate], nor a conforming [Category] to
    [CategoryUpdate], because the [id] they carry is a number. *)
Theorem read_values_are_not_update_bodies fresh fs :
  (has_type fresh (TObject MenuItem) (VObj fs) = true ->
   has_type fresh (TObject MenuItemUpdate) (VObj fs) = false) /\
  (has_type fresh (TObject Category) (VObj fs) = true ->
   has_type fresh (TObject CategoryUpdate) (VObj fs) = false).
Proof.
  split; intros H.
  - exact (numeric_id_not_update fresh _ _ fs MenuItem_id MenuItemUpdate_id H).
  - exact (numeric_id_not_update fresh _ _ fs Category_id CategoryUpdate_id H).
Qed.

Lemma read_values_are_not_update_bodies_witness :
  has_type false (TObject MenuItemUpdate) pad_thai = false /\
  has_type false (TObject CategoryUpdate) (VObj mains_fields) = false.
Proof.
  split.
  - apply (proj1 (read_values_are_not_update_bodies false pad_thai_fields)).
    reflexivity.
  - apply (proj2 (read_values_are_not_update_bodies false mains_fields)).
    reflexivity.
Defined.

(** X11: where additional properties are allowed, every conforming
    [Category] is also a [CategoryCreate]; as a literal it never is, since
    [id] is not declared there. *)
Theorem Category_as_CategoryCreate fs :
  (has_type false (TObject Category) (VObj fs) = true ->
   has_type false (TObject CategoryCreate) (VObj fs) = true) /\
  (has_type true (TObject Category) (VObj fs) = true ->
   has_type true (TObject CategoryCreate) (VObj fs) = false).
Proof.
  split; intros H.
  - apply (has_type_incl Category); [reflexivity | | exact H].
    intros p [<- | [<- | [<- | []]]]; unfold Category; in_iface.
  - destruct (has_type_required true _ _ _ _ H Category_id) as [x [Hx _]].
    destruct (has_type true (TObject CategoryCreate) (VObj fs)) eqn:E;
      [| reflexivity].
    pose proof (has_type_fresh_keys true _ _ _ _ eq_refl E Hx) as Hin.
    simpl in Hin. intuition discriminate.
Qed.

Lemma Category_as_CategoryCreate_witness :
  has_type false (TObject CategoryCreate) (VObj mains_fields) = true /\
  has_type true (TObject CategoryCreate) (VObj mains_fields) = false.
Proof.
  split.
  - apply (proj1 (Category_as_CategoryCreate mains_fields)). reflexivity.
  - apply (proj2 (Category_as_CategoryCreate mains_fields)). reflexivity.
Defined.

(** ** Menu item bodies *)

Lemma MenuItemCreate_names_not_omitted k :
  In k (names MenuItemCreate) -> ~ In k MenuItemCreate_omitted.
Proof.
  unfold MenuItemCreate. intros H. apply In_names_extends in H as [H | H].
  - now apply In_names_Omit in H.
  - simpl in H. simpl. intuition (subst; discriminate).
Qed.

Lemma MenuItemCreate_names_in_MenuItem k :
  In k (names MenuItemCreate) -> k <> "allergen_ids" ->
  In k (names MenuItem).
Proof.
  unfold MenuItemCreate. intros H Hne.
  apply In_names_extends in H as [H | H].
  - now apply In_names_Omit in H.
  - simpl in H. destruct H as [<- | [<- | []]].
    + unfold MenuItem. in_iface.
    + congruence.
Qed.

(** X5: a [MenuItemCreate] literal that holds any of the six server-side
    fields does not conform, whatever the field holds. *)
Theorem MenuItemCreate_literal_rejects_server_fields fs k x :
  In k MenuItemCreate_omitted ->
  field k fs = Some x ->
  has_type true (TObject MenuItemCreate) (VObj fs) = false.
Proof.
  intros Hk Hx.
  destruct (has_type true (TObject MenuItemCreate) (VObj fs)) eqn:E;
    [| reflexivity].
  pose proof (has_type_fresh_keys true _ _ _ _ eq_refl E Hx) as Hin.
  elim (MenuItemCreate_names_not_omitted k Hin Hk).
Qed.

Lemma MenuItemCreate_literal_rejects_server_fields_witness :
  has_type true (TObject MenuItemCreate)
    (VObj (set_field "rating_count" (VNum 12) pad_thai_create_fields)) = false.
Proof.
  apply (MenuItemCreate_literal_rejects_server_fields _ "rating_count"
           (VNum 12)).
  - simpl. tauto.
  - reflexivity.
Defined.

(** X12: where additional properties are allowed the server-side fields
    do not stand in the way: a conforming [MenuItem] to which a sequence of
    numbers is added as [allergen_ids] conforms to [MenuItemCreate] as it
    is. *)
Theorem MenuItem_with_ids_is_MenuItemCreate fs (ids : list Q) :
  has_type false (TObject MenuItem) (VObj fs) = true ->
  has_type false (TObject MenuItemCreate)
    (VObj (set_field "allergen_ids" (VArr (map VNum ids)) fs)) = true.
Proof.
  intros H. apply has_type_object_intro; [reflexivity |].
  split; [| discriminate].
  rewrite MenuItemCreate_props.
  repeat (apply Forall_cons;
          [ apply prop_holds_set_other;
            [ discriminate
            | apply (has_type_prop false MenuItem fs _ H);
              unfold MenuItem; in_iface ]
          | ]).
  apply Forall_cons; [| apply Forall_nil].
  apply prop_holds_set_same; [reflexivity | apply has_type_numbers].
Qed.

Lemma MenuItem_with_ids_is_MenuItemCreate_witness :
  has_type false (TObject MenuItemCreate)
    (VObj (set_field "allergen_ids" (VArr (map VNum [ 1 ])) pad_thai_fields))
  = true.
Proof.
  apply (MenuItem_with_ids_is_MenuItemCreate pad_thai_fields [ 1 ]).
  reflexivity.
Defined.

(** X8: making the properties optional does not loosen their types: what a
    conforming [MenuItemUpdate] holds under a property of [MenuItemCreate]
    is [undefined] or a value of the type declared there. *)
Theorem MenuItemUpdate_fields_typed_as_create fresh fs (p : prop ty) x :
  has_type fresh (TObject MenuItemUpdate) (VObj fs) = true ->
  In p MenuItemCreate ->
  field (pname p) fs = Some x ->
  x = VUndefined \/ has_type fresh (ptype p) x = true.
Proof.
  intros H Hp Hx.
  apply (has_type_optional fresh MenuItemUpdate fs (pname p)); try assumption.
  rewrite MenuItemUpdate_is_partial_create. apply in_or_app. left.
  unfold Partial. apply in_map_iff. now exists p.
Qed.

Lemma MenuItemUpdate_fields_typed_as_create_witness :
  VNum (999 # 100) = VUndefined \/
  has_type true TNumber (VNum (999 # 100)) = true.
Proof.
  apply (MenuItemUpdate_fields_typed_as_create true
           [ ("price", VNum (999 # 100)) ] (mkProp "price" false TNumber)).
  - reflexivity.
  - rewrite MenuItemCreate_props. in_iface.
  - reflexivity.
Defined.

(** X9: [MenuItemCreate] without [allergen_ids] declares the properties
    of [MenuItem] without the six server-side ones, with the same types and
    the same optionality, in another order; so a conforming
    [MenuItemCreate] from which [allergen_ids] is deleted and to which the
    six server-side fields are added conforms to [MenuItem]. *)
Theorem MenuItem_from_MenuItemCreate fresh fs
  (id avg count : Q) (category created updated : string) :
  Permutation
    (Omit MenuItemCreate [ "allergen_ids" ])
    (Omit MenuItem
       [ "id"; "created_at"; "updated_at"; "category"; "average_rating";
         "rating_count" ]) /\
  (has_type fresh (TObject MenuItemCreate) (VObj fs) = true ->
   has_type fresh (TObject MenuItem)
     (VObj (set_field "id" (VNum id)
           (set_field "category" (VStr category)
           (set_field "average_rating" (VNum avg)
           (set_field "rating_count" (VNum count)
           (set_field "created_at" (VStr created)
           (set_field "updated_at" (VStr updated)
           (omit_fields [ "allergen_ids" ] fs)))))))) = true).
Proof.
  split.
  { rewrite MenuItemCreate_props. unfold MenuItem, Omit; simpl.
    repeat apply perm_skip. apply Permutation_sym.
    repeat (eapply perm_trans; [apply perm_swap | apply perm_skip]).
    apply Permutation_refl. }
  intros H. apply has_type_object_intro; [reflexivity |]. split.
  - unfold MenuItem.
    repeat (apply Forall_cons;
      [ repeat first
          [ apply prop_holds_set_same; [reflexivity | reflexivity]
          | apply prop_holds_set_other; [discriminate |] ];
        try (apply prop_holds_omit_out;
             [ simpl; intuition discriminate
             | apply (has_type_prop fresh MenuItemCreate fs _ H);
               rewrite MenuItemCreate_props; in_iface ])
      | ]).
    apply Forall_nil.
  - intros Hf. apply Forall_forall. intros kv Hkv.
    repeat (apply keys_set in Hkv as [-> | [Hkv _]];
            [unfold MenuItem; in_iface |]).
    apply keys_omit in Hkv as [Hkv Hne].
    apply has_type_object_elim in H as [_ Hks]. specialize (Hks Hf).
    rewrite Forall_forall in Hks. specialize (Hks kv Hkv).
    apply MenuItemCreate_names_in_MenuItem; [exact Hks |].
    intros E. apply Hne. simpl. now left.
Qed.

Lemma MenuItem_from_MenuItemCreate_witness :
  has_type true (TObject MenuItemCreate) (VObj pad_thai_create_fields) = true /\
  has_type true (TObject MenuItem)
    (VObj (set_field "id" (VNum 8)
          (set_field "category" (VStr "Mains")
          (set_field "average_rating" (VNum 0)
          (set_field "rating_count" (VNum 0)
          (set_field "created_at" (VStr "2024-02-01T00:00:00Z")
          (set_field "updated_at" (VStr "2024-02-01T00:00:00Z")
          (omit_fields [ "allergen_ids" ] pad_thai_create_fields))))))))
  = true.
Proof.
  split; [reflexivity |].
  apply (proj2 (MenuItem_from_MenuItemCreate true pad_thai_create_fields
                  8 0 0 "Mains" "2024-02-01T00:00:00Z"
                  "2024-02-01T00:00:00Z")).
  reflexivity.
Defined.

(** ** The update shapes, exactly *)

(** X10: where additional properties are allowed, a value conforms to
    [CategoryUpdate] exactly when it conforms to [CategoryCreate] and its
    [id] is absent or [undefined].  A value conforms to [MenuItemUpdate]
    exactly when what it holds under each property of [MenuItemCreate] is
    [undefined] or of the declared type, its [id] is absent or [undefined],
    and it is empty or holds a declared key.  Every value of
    [Partial<MenuItemCreate>] with such an [id] is a [MenuItemUpdate], and
    not the other way round: [{ id: undefined }] is only the latter. *)
Theorem update_shapes_exactly fs :
  (has_type false (TObject CategoryUpdate) (VObj fs) = true <->
   has_type false (TObject CategoryCreate) (VObj fs) = true /\
   absent_or_undefined (field "id" fs)) /\
  (has_type false (TObject MenuItemUpdate) (VObj fs) = true <->
   (forall p x, In p MenuItemCreate -> field (pname p) fs = Some x ->
                x = VUndefined \/ has_type false (ptype p) x = true) /\
   absent_or_undefined (field "id" fs) /\
   (fs = [] \/
    exists k x, In k (names MenuItemUpdate) /\ field k fs = Some x)) /\
  (has_type false (TObject (Partial MenuItemCreate)) (VObj fs) = true ->
   absent_or_undefined (field "id" fs) ->
   has_type false (TObject MenuItemUpdate) (VObj fs) = true) /\
  (has_type false (TObject MenuItemUpdate) (VObj [ ("id", VUndefined) ])
   = true /\
   has_type false (TObject (Partial MenuItemCreate))
     (VObj [ ("id", VUndefined) ]) = false).
Proof.
  assert (Hmiu : has_type false (TObject MenuItemUpdate) (VObj fs) = true <->
    (forall p x, In p MenuItemCreate -> field (pname p) fs = Some x ->
                 x = VUndefined \/ has_type false (ptype p) x = true) /\
    absent_or_undefined (field "id" fs) /\
    (fs = [] \/
     exists k x, In k (names MenuItemUpdate) /\ field k fs = Some x)).
  { rewrite has_type_object_weak. rewrite MenuItemUpdate_is_partial_create.
    rewrite Forall_app, prop_holds_Partial_iff.
    rewrite <- MenuItemUpdate_is_partial_create. split.
    - intros [[[Hps Hid] _] Hw]. split; [exact Hps |]. split.
      + apply Forall_inv in Hid. now apply prop_holds_id_iff in Hid.
      + destruct (Hw eq_refl) as [E | [[k x] [Hin Hk]]]; [now left | right].
        destruct (In_field k x fs Hin) as [y Hy]. now exists k, y.
    - intros [Hps [Hid Hw]]. split; [split; [split |] |].
      + exact Hps.
      + apply Forall_cons; [| apply Forall_nil]. now apply prop_holds_id_iff.
      + discriminate.
      + intros _. destruct Hw as [E | [k [x [Hk Hx]]]]; [now left | right].
        exists (k, x). split; [now apply field_In | exact Hk]. }
  split; [| split; [exact Hmiu | split; [| split; reflexivity]]].
  - rewrite CategoryUpdate_is_create.
    apply has_type_forbid_id_iff; reflexivity.
  - intros H Hid. apply Hmiu.
    apply has_type_object_weak in H as [[Hps _] Hw]. split; [| split].
    + now apply prop_holds_Partial_iff.
    + exact Hid.
    + destruct (Hw eq_refl) as [E | [[k x] [Hin Hk]]]; [now left | right].
      destruct (In_field k x fs Hin) as [y Hy]. exists k, y.
      split; [| exact Hy]. simpl in Hk.
      fold (names (Partial MenuItemCreate)) in Hk.
      rewrite MenuItemUpdate_is_partial_create. unfold names.
      rewrite map_app. apply in_or_app. now left.
Qed.

Lemma update_shapes_exactly_witness :
  has_type false (TObject (Partial MenuItemCreate))
    (price_only (999 # 100)) = true /\
  absent_or_undefined (field "id" [ ("price", VNum (999 # 100)) ]) /\
  has_type false (TObject MenuItemUpdate) (price_only (999 # 100)) = true.
Proof.
  split; [reflexivity |]. split; [now left |].
  apply (proj1 (proj2 (proj2
           (update_shapes_exactly [ ("price", VNum (999 # 100)) ])))).
  - reflexivity.
  - now left.
Defined.
